(** * A shallow embedding of src/ai-model/main.py (AI Chat API)

    The FastAPI service wraps an Ollama inference backend and a Postgres
    store.  We model:
    - [_build_prompt], a pure function over strings;
    - the store as a state ([db]) reached through a small exception/state
      monad whose every external call is recorded in a trace and may fail
      according to a fault plan supplied by the environment;
    - the inference backend as an oracle outcome for the single HTTP call
      of each handler;
    - the handlers [chat], [get_history] and [health] as monadic programs
      following the Python control flow statement by statement. *)

From Stdlib Require Import String Ascii List ZArith Bool Lia.
Import ListNotations.
Open Scope string_scope.

(* ------------------------------------------------------------------ *)
(** ** Strings *)

Definition nl : string := String (ascii_of_nat 10) EmptyString.

(** Python's [str.strip()] with no argument, on ASCII text: the characters
    for which [str.isspace] holds are 9-13 and 28-32. *)
Definition py_isspace (c : ascii) : bool :=
  let n := nat_of_ascii c in
  ((9 <=? n) && (n <=? 13) || (28 <=? n) && (n <=? 32))%nat.

Fixpoint lstrip (s : string) : string :=
  match s with
  | EmptyString => EmptyString
  | String c r => if py_isspace c then lstrip r else s
  end.

Definition rev_string (s : string) : string :=
  string_of_list_ascii (rev (list_ascii_of_string s)).

Definition py_strip (s : string) : string :=
  rev_string (lstrip (rev_string (lstrip s))).

(* ------------------------------------------------------------------ *)
(** ** Prompt assembly: [_build_prompt] (main.py lines 109-118) *)

(** A history entry: the dict [{"role": ..., "content": ...}]. *)
Record turn := mkTurn { role : string; content : string }.

Definition _build_prompt (history : list turn) (user_message : string) : string :=
  let prompt :=
    "You are a helpful, friendly AI assistant. " ++
    "Answer concisely and accurately." ++ nl ++ nl in
  let prompt :=
    fold_left
      (fun prompt msg =>
         let prefix := if String.eqb (role msg) "user" then "User" else "Assistant" in
         prompt ++ (prefix ++ ": " ++ content msg ++ nl))
      history prompt in
  prompt ++ ("User: " ++ user_message ++ nl ++ "Assistant:").

(** The prompt layout as the specification describes it: the preamble
    (followed by a blank line), one newline-terminated line
    ["<label>: <content>"] per turn, label [User] iff the role is ["user"],
    then the cue ["User: <new_message>\nAssistant:"]. *)
Definition spec_label (t : turn) : string :=
  if String.eqb (role t) "user" then "User" else "Assistant".

Definition spec_preamble : string :=
  "You are a helpful, friendly AI assistant. Answer concisely and accurately.".

Fixpoint spec_lines (h : list turn) : string :=
  match h with
  | [] => ""
  | t :: h' => (spec_label t ++ ": " ++ content t ++ nl) ++ spec_lines h'
  end.

Definition spec_prompt (h : list turn) (new_message : string) : string :=
  spec_preamble ++ nl ++ nl ++ spec_lines h ++
  "User: " ++ new_message ++ nl ++ "Assistant:".

(* ------------------------------------------------------------------ *)
(** ** [uuid.UUID(s)] and [str(uuid)] (CPython's uuid module)

    [uuid.UUID(hex)] removes every ["urn:"] and ["uuid:"], strips braces
    from both ends, removes every ["-"], requires 32 characters, converts
    with [int(hex, 16)] and requires the value to fit in 128 bits;
    otherwise it raises [ValueError]. *)

(** [s.replace(pat, "")] for a non-empty [pat]: non-overlapping occurrences,
    left to right; [skip] counts characters of a match still to drop. *)
Fixpoint remove_all_go (pat s : string) (skip : nat) : string :=
  match s with
  | EmptyString => EmptyString
  | String c r =>
      match skip with
      | S k => remove_all_go pat r k
      | O => if String.prefix pat s
             then remove_all_go pat r (String.length pat - 1)
             else String c (remove_all_go pat r O)
      end
  end.

Definition remove_all (pat s : string) : string := remove_all_go pat s O.

Definition in_chars (set : string) (c : ascii) : bool :=
  existsb (fun d => Ascii.eqb c d) (list_ascii_of_string set).

Fixpoint lstrip_chars (set s : string) : string :=
  match s with
  | EmptyString => EmptyString
  | String c r => if in_chars set c then lstrip_chars set r else s
  end.

(** [s.strip(chars)] *)
Definition strip_chars (set s : string) : string :=
  rev_string (lstrip_chars set (rev_string (lstrip_chars set s))).

Definition hex_value (c : ascii) : option Z :=
  let n := Z.of_nat (nat_of_ascii c) in
  if ((48 <=? n) && (n <=? 57))%Z then Some (n - 48)%Z
  else if ((97 <=? n) && (n <=? 102))%Z then Some (n - 87)%Z
  else if ((65 <=? n) && (n <=? 70))%Z then Some (n - 55)%Z
  else None.

(** The digit part of [int(s, 16)]: hex digits, single underscores allowed
    between digits and right after a base prefix ([u_ok]); it may end only
    after a digit ([end_ok]). *)
Fixpoint hex_digits (s : string) (acc : Z) (u_ok end_ok : bool) : option Z :=
  match s with
  | EmptyString => if end_ok then Some acc else None
  | String c r =>
      match hex_value c with
      | Some d => hex_digits r (acc * 16 + d)%Z true true
      | None =>
          if Ascii.eqb c "_"%char && u_ok then hex_digits r acc false false
          else None
      end
  end.

(** [int(s, 16)]: surrounding whitespace, an optional sign, an optional
    [0x]/[0X] prefix, then the digits. *)
Definition py_int16 (s : string) : option Z :=
  let s := py_strip s in
  let '(neg, s) :=
    match s with
    | String "+"%char r => (false, r)
    | String "-"%char r => (true, r)
    | _ => (false, s)
    end in
  let v :=
    match s with
    | String "0"%char (String x r) =>
        if Ascii.eqb x "x"%char || Ascii.eqb x "X"%char
        then hex_digits r 0%Z true false
        else hex_digits s 0%Z false false
    | _ => hex_digits s 0%Z false false
    end in
  option_map (fun z => if neg then (- z)%Z else z) v.

Definition uuid_UUID_parse (s : string) : option Z :=
  let hex := remove_all "uuid:" (remove_all "urn:" s) in
  let hex := remove_all "-" (strip_chars "{}" hex) in
  if negb (String.length hex =? 32)%nat then None
  else match py_int16 hex with
       | Some v => if ((0 <=? v) && (v <? 2 ^ 128))%Z then Some v else None
       | None => None
       end.

Definition hex_char (d : Z) : ascii :=
  if (d <? 10)%Z then ascii_of_nat (Z.to_nat (48 + d))
  else ascii_of_nat (Z.to_nat (87 + d)).

(** ['%032x' % v] *)
Fixpoint hex_fixed (n : nat) (v : Z) (acc : string) : string :=
  match n with
  | O => acc
  | S n' => hex_fixed n' (v / 16)%Z (String (hex_char (v mod 16)%Z) acc)
  end.

(** [str(uuid)]: 8-4-4-4-12 groups of the 32 lowercase hex digits. *)
Definition uuid_str (v : Z) : string :=
  let h := hex_fixed 32 v EmptyString in
  substring 0 8 h ++ "-" ++ substring 8 4 h ++ "-" ++ substring 12 4 h ++ "-" ++
  substring 16 4 h ++ "-" ++ substring 20 12 h.

(* ------------------------------------------------------------------ *)
(** ** JSON bodies *)

Set Warnings "-register-all".

Inductive json :=
| JNull
| JBool (b : bool)
| JNum (z : Z)
| JStr (s : string)
| JArr (items : list json)
| JObj (fields : list (string * json)).

(** [d.get(key, default)] on a dict decoded from JSON, given by its items
    (keys are distinct in a dict). *)
Definition dict_get (fields : list (string * json)) (key : string) (default : json) : json :=
  match find (fun kv => String.eqb (fst kv) key) fields with
  | Some (_, v) => v
  | None => default
  end.

(* ------------------------------------------------------------------ *)
(** ** The Postgres store *)

(** A row of table [messages]; [created_at] is assigned by the store. *)
Record row := mkRow {
  r_conversation_id : Z;
  r_role : string;
  r_content : string;
  r_created_at : nat
}.

(** The store contents: table [conversations], table [messages] in
    insertion order, and the store's clock for [created_at]. *)
Record db := mkDb {
  conversations : list Z;
  messages : list row;
  clock : nat
}.

(** [ORDER BY created_at ASC / DESC]: insertion sort on [created_at]. *)
Fixpoint insert_by (le : row -> row -> bool) (x : row) (l : list row) : list row :=
  match l with
  | [] => [x]
  | y :: l' => if le x y then x :: l else y :: insert_by le x l'
  end.

Fixpoint sort_by (le : row -> row -> bool) (l : list row) : list row :=
  match l with
  | [] => []
  | x :: l' => insert_by le x (sort_by le l')
  end.

Definition created_asc (a b : row) : bool := (r_created_at a <=? r_created_at b)%nat.
Definition created_desc (a b : row) : bool := (r_created_at b <=? r_created_at a)%nat.

Definition rows_of (k : Z) (d : db) : list row :=
  filter (fun r => Z.eqb (r_conversation_id r) k) (messages d).

(** The statements main.py sends to the store. *)
Inductive store_op :=
| Acquire                                  (* db_pool.acquire() *)
| InsertConversation (k : Z)               (* INSERT INTO conversations(id) VALUES($1) ON CONFLICT DO NOTHING *)
| FetchRecent (k : Z) (limit : nat)        (* SELECT role, content ... ORDER BY created_at DESC LIMIT n *)
| InsertMessage (k : Z) (role content : string) (* INSERT INTO messages(conversation_id, role, content) *)
| FetchAll (k : Z)                         (* SELECT role, content, created_at ... ORDER BY created_at ASC *)
| Select1                                  (* SELECT 1 *)
| Release.                                 (* end of [async with db_pool.acquire()]: the pool resets the connection *)

(** Effect of a statement that the store executes successfully.
    Modelled from the spec: the table definitions are not in src/; per the
    spec (section 3) the store assigns [created_at] itself, increasing with
    each insertion, which we model by its [clock]. *)
Definition run_op (op : store_op) (d : db) : list row * db :=
  match op with
  | Acquire | Select1 | Release => ([], d)
  | InsertConversation k =>
      ([], if existsb (Z.eqb k) (conversations d) then d
           else mkDb (conversations d ++ [k]) (messages d) (clock d))
  | FetchRecent k limit => (firstn limit (sort_by created_desc (rows_of k d)), d)
  | InsertMessage k ro co =>
      ([], mkDb (conversations d) (messages d ++ [mkRow k ro co (clock d)]) (S (clock d)))
  | FetchAll k => (sort_by created_asc (rows_of k d), d)
  end.

(* ------------------------------------------------------------------ *)
(** ** External calls and the handler monad *)

(** The inference backend's answer to one HTTP call. [Response] carries the
    status and the body, [None] when the body is not JSON. *)
Inductive http_outcome :=
| ConnectError
| Timeout
| Response (status : Z) (body : option json).

Inductive event :=
| EStore (op : store_op)         (* a statement sent to the store *)
| EGenerate (prompt : string)    (* POST {OLLAMA_HOST}/api/generate *)
| ETags.                         (* GET {OLLAMA_HOST}/api/tags *)

(** Python exceptions raised along the handlers. *)
Inductive exn :=
| StoreError                     (* asyncpg / OS errors from the store *)
| ValueError                     (* uuid.UUID on a malformed string *)
| HTTPStatusError (status : Z)   (* httpx raise_for_status *)
| TransportError                 (* httpx connect error / timeout *)
| JSONDecodeError
| AttributeError
| HTTPException (status_code : Z) (detail : string).

Definition exn_str (e : exn) : string :=
  match e with
  | StoreError => "store error"
  | ValueError => "badly formed hexadecimal UUID string"
  | HTTPStatusError _ => "HTTP status error"
  | TransportError => "transport error"
  | JSONDecodeError => "JSON decode error"
  | AttributeError => "attribute error"
  | HTTPException _ d => d
  end.

(** The process-wide [db_pool] ([None] when the pool could not be created
    at startup), the environment's fault plan (the [n]-th store statement
    raises iff the [n]-th entry is [true]; none once the plan is used up),
    its plan for connection releases (the [n]-th release raises iff the
    [n]-th entry is [true]: asyncpg re-raises a failed reset of the
    connection when it goes back to the pool), and the trace of external
    calls. *)
Record world := mkWorld {
  db_pool : option db;
  faults : list bool;
  release_faults : list bool;
  trace : list event
}.

Definition M (A : Type) : Type := world -> (A + exn) * world.

Definition ret {A} (a : A) : M A := fun w => (inl a, w).
Definition raise {A} (e : exn) : M A := fun w => (inr e, w).
Definition bind {A B} (m : M A) (k : A -> M B) : M B :=
  fun w => match m w with
           | (inl a, w') => k a w'
           | (inr e, w') => (inr e, w')
           end.
(** [try: m except Exception as e: h(e)] *)
Definition try_ {A} (m : M A) (h : exn -> M A) : M A :=
  fun w => match m w with
           | (inl a, w') => (inl a, w')
           | (inr e, w') => h e w'
           end.

Notation "x <- m ;; k" := (bind m (fun x => k))
  (at level 61, m at next level, right associativity).
Notation "m ;;; k" := (bind m (fun _ => k))
  (at level 61, right associativity).

Definition get_pool : M (option db) := fun w => (inl (db_pool w), w).

Definition emit (e : event) : M unit :=
  fun w => (inl tt, mkWorld (db_pool w) (faults w) (release_faults w) (trace w ++ [e])).

(** One statement sent to the store through the pool. *)
Definition store_call (op : store_op) : M (list row) :=
  fun w =>
    let w1 := mkWorld (db_pool w) (tl (faults w)) (release_faults w) (trace w ++ [EStore op]) in
    match db_pool w with
    | None => (inr StoreError, w1)
    | Some d =>
        if hd false (faults w) then (inr StoreError, w1)
        else let '(rows, d') := run_op op d in
             (inl rows, mkWorld (Some d') (faults w1) (release_faults w1) (trace w1))
    end.

(** Giving the connection back to the pool at the end of the block. *)
Definition release : M unit :=
  fun w =>
    let w1 := mkWorld (db_pool w) (faults w) (tl (release_faults w))
                      (trace w ++ [EStore Release]) in
    if hd false (release_faults w) then (inr StoreError, w1) else (inl tt, w1).

(** [async with db_pool.acquire() as conn: body]: the body runs once a
    connection is acquired, and the connection is released whatever the
    body did; an exception of the release replaces the body's outcome. *)
Definition with_connection {A} (body : M A) : M A :=
  store_call Acquire ;;;
  fun w =>
    let '(r, w1) := body w in
    let '(rr, w2) := release w1 in
    (match rr with inl _ => r | inr e => inr e end, w2).

Definition uuid_UUID (s : string) : M Z :=
  match uuid_UUID_parse s with
  | Some v => ret v
  | None => raise ValueError
  end.

(* ------------------------------------------------------------------ *)
(** ** Handlers *)

Record ChatRequest := mkChatRequest {
  message : string;
  req_conversation_id : option string
}.

Record ChatResponse := mkChatResponse {
  response : string;
  conversation_id : string;
  model : string
}.

Record HealthResponse := mkHealthResponse {
  status : string;
  h_model : string;
  ollama : string;
  database : string
}.

(** [Message]; [created_at] holds the store's timestamp that the handler
    renders with [str(...)]. *)
Record Message := mkMessage {
  m_role : string;
  m_content : string;
  created_at : option nat
}.

Section Handlers.

(** [MODEL_NAME] from the environment (default ["tinyllama"]). *)
Variable MODEL_NAME : string.

(** The statements inside the [async with] of the history load (lines
    159-173); the result is the value assigned to [history]. *)
Definition load_statements (conversation_id : string) : M (list turn) :=
  k <- uuid_UUID conversation_id ;;
  store_call (InsertConversation k) ;;;
  k' <- uuid_UUID conversation_id ;;
  rows <- store_call (FetchRecent k' 10) ;;
  ret (map (fun r => mkTurn (r_role r) (r_content r)) (rev rows)).

(** The "Load conversation history" block of [chat] (lines 154-175).
    [history] starts as [[]] and is assigned by the last statement of the
    [async with]; the [except] catches whatever the block raises, the
    release at its end included, and [history] keeps its last value. *)
Definition load_history (conversation_id : string) : M (list turn) :=
  pool <- get_pool ;;
  match pool with
  | None => ret []
  | Some _ =>
      fun w =>
        match store_call Acquire w with
        | (inr _, w1) => (inl [], w1)
        | (inl _, w1) =>
            let '(r, w2) := load_statements conversation_id w1 in
            let history := match r with inl h => h | inr _ => [] end in
            (inl history, snd (release w2))
        end
  end.

(** The body of the [try] of the "Call Ollama" block (lines 180-195):
    the POST, [resp.raise_for_status()] (httpx raises for every status
    outside 2xx), [resp.json().get("response", "").strip()]. *)
Definition call_ollama (ollama_result : http_outcome) (prompt : string) : M string :=
  emit (EGenerate prompt) ;;;
  match ollama_result with
  | ConnectError | Timeout => raise TransportError
  | Response st body =>
      if ((200 <=? st) && (st <? 300))%Z then
        match body with
        | None => raise JSONDecodeError
        | Some (JObj fields) =>
            match dict_get fields "response" (JStr "") with
            | JStr s => ret (py_strip s)
            | _ => raise AttributeError
            end
        | Some _ => raise AttributeError
        end
      else raise (HTTPStatusError st)
  end.

(** The "Persist messages" block of [chat] (lines 203-216). *)
Definition persist_messages (conversation_id user_message ai_text : string) : M unit :=
  pool <- get_pool ;;
  match pool with
  | None => ret tt
  | Some _ =>
      try_
        (with_connection
          (k <- uuid_UUID conversation_id ;;
           store_call (InsertMessage k "user" user_message) ;;;
           k' <- uuid_UUID conversation_id ;;
           store_call (InsertMessage k' "assistant" ai_text) ;;;
           ret tt))
        (fun _ => ret tt)
  end.

(** [req.conversation_id or str(uuid.uuid4())] (line 153): [uuid4] is
    the value [uuid.uuid4()] draws when it is called; [or] treats [None]
    and the empty string as absent. *)
Definition resolve_conversation_id (uuid4 : Z) (req : ChatRequest) : string :=
  match req_conversation_id req with
  | Some s => if String.eqb s "" then uuid_str uuid4 else s
  | None => uuid_str uuid4
  end.

(** [chat] (lines 151-222). *)
Definition chat (uuid4 : Z) (ollama_result : http_outcome) (req : ChatRequest)
  : M ChatResponse :=
  let conversation_id := resolve_conversation_id uuid4 req in
  history <- load_history conversation_id ;;
  let prompt := _build_prompt history (message req) in
  ai_text <- try_ (call_ollama ollama_result prompt)
                  (fun e => match e with
                            | HTTPStatusError _ => raise (HTTPException 502 "AI service error")
                            | _ => raise (HTTPException 503 "AI service unavailable")
                            end) ;;
  persist_messages conversation_id (message req) ai_text ;;;
  ret (mkChatResponse ai_text conversation_id MODEL_NAME).

(** [get_history] (lines 225-240).  The release that ends its [async
    with] (opened on line 230) is left out: its failure would be one more store error
    turned into the same 500 response. *)
Definition get_history (conversation_id : string) : M (list Message) :=
  pool <- get_pool ;;
  match pool with
  | None => raise (HTTPException 503 "Database not available")
  | Some _ =>
      try_
        (store_call Acquire ;;;
         k <- uuid_UUID conversation_id ;;
         rows <- store_call (FetchAll k) ;;
         ret (map (fun r => mkMessage (r_role r) (r_content r) (Some (r_created_at r))) rows))
        (fun e => raise (HTTPException 500 (exn_str e)))
  end.

(** [health] (lines 122-148); [tags_result] is the answer to the
    [GET /api/tags] probe. *)
Definition health (tags_result : http_outcome) : M HealthResponse :=
  emit ETags ;;;
  let ollama_status :=
    match tags_result with
    | ConnectError | Timeout => "unreachable"
    | Response st _ => if Z.eqb st 200 then "healthy" else "unhealthy"
    end in
  pool <- get_pool ;;
  db_status <-
    match pool with
    | None => ret "unavailable"
    | Some _ =>
        try_ (with_connection (store_call Select1 ;;; ret tt) ;;; ret "healthy")
             (fun _ => ret "unhealthy")
    end ;;
  ret (mkHealthResponse "healthy" MODEL_NAME ollama_status db_status).



End Handlers.

(* ------------------------------------------------------------------ *)
(** ** Notions used to state the properties *)

From Stdlib Require Import Sorting.Sorted.

(** Modelled from the spec: the store's [created_at] values are strictly
    increasing in insertion order and below its clock (spec section 3:
    "creation timestamp (assigned by the store, monotonically increasing
    within a conversation)"); [run_op_wf] shows [run_op] keeps it. *)
Definition wf_db (d : db) : Prop :=
  StronglySorted (fun a b => r_created_at a < r_created_at b)%nat (messages d) /\
  Forall (fun r => r_created_at r < clock d)%nat (messages d).

Definition wf_world (w : world) : Prop :=
  forall d, db_pool w = Some d -> wf_db d.

(** The last [n] elements of a list, in their order. *)
Definition lastn {A} (n : nat) (l : list A) : list A :=
  skipn (length l - n) l.

Definition turn_of (r : row) : turn := mkTurn (r_role r) (r_content r).


(** The first [n] store statements from [w] do not fail. *)
Fixpoint no_faults (n : nat) (f : list bool) : bool :=
  match n with
  | O => true
  | S n' => negb (hd false f) && no_faults n' (tl f)
  end.

Definition db_messages (w : world) : option (list row) :=
  option_map messages (db_pool w).

(** The store of [w'] has the messages and clock of the store of [w]; its
    [conversations] table may have gained [k] (the registration of the
    conversation [k]). *)
Definition only_registered (k : option Z) (w w' : world) : Prop :=
  match db_pool w, db_pool w' with
  | None, None => True
  | Some d, Some d' =>
      messages d' = messages d /\ clock d' = clock d /\
      (conversations d' = conversations d \/
       exists k0, k = Some k0 /\ conversations d' = (conversations d ++ [k0])%list)
  | _, _ => False
  end.

Fixpoint count_generate (t : list event) : nat :=
  match t with
  | [] => O
  | EGenerate _ :: t' => S (count_generate t')
  | _ :: t' => count_generate t'
  end.

Definition result_value {A} (r : A + exn) : option A :=
  match r with inl a => Some a | inr _ => None end.

(** The classified failure of an inference call: BackendUnavailable (503)
    for an unreachable backend, BackendError (502) for a non-2xx status. *)
Definition backend_failure (o : http_outcome) : option (Z * string) :=
  match o with
  | ConnectError | Timeout => Some (503%Z, "AI service unavailable")
  | Response st _ =>
      if ((200 <=? st) && (st <? 300))%Z then None
      else Some (502%Z, "AI service error")
  end.

(** A character printed by ['%032x']: a lowercase hex digit. *)
Definition is_hex_char (c : ascii) : Prop := exists d, (0 <= d < 16)%Z /\ c = hex_char d.

(* ------------------------------------------------------------------ *)
(** ** Lemmas *)

Lemma str_append_assoc (a b c : string) :
  (a ++ b) ++ c = a ++ (b ++ c).
Proof. induction a as [|x a IH]; simpl; [reflexivity | now rewrite IH]. Qed.

Lemma str_append_nil_r (a : string) : a ++ "" = a.
Proof. induction a as [|x a IH]; simpl; [reflexivity | now rewrite IH]. Qed.

Lemma fold_prompt_lines (h : list turn) (acc : string) :
  fold_left
    (fun prompt msg =>
       let prefix := if String.eqb (role msg) "user" then "User" else "Assistant" in
       prompt ++ (prefix ++ ": " ++ content msg ++ nl))
    h acc = acc ++ spec_lines h.
Proof.
  revert acc; induction h as [|t h IH]; intros acc; simpl.
  - now rewrite str_append_nil_r.
  - rewrite IH, str_append_assoc. reflexivity.
Qed.

Lemma ss_filter {A} (R : A -> A -> Prop) (f : A -> bool) (l : list A) :
  StronglySorted R l -> StronglySorted R (filter f l).
Proof.
  induction 1 as [|a l Hs IH Hf]; simpl; [constructor|].
  destruct (f a); [|exact IH].
  constructor; [exact IH|].
  rewrite Forall_forall in *. intros x Hx. apply filter_In in Hx. now apply Hf.
Qed.

Lemma insert_desc_last (x : row) (l : list row) :
  Forall (fun y => r_created_at x < r_created_at y)%nat l ->
  insert_by created_desc x l = (l ++ [x])%list.
Proof.
  induction 1 as [|y l Hy _ IH]; simpl; [reflexivity|].
  replace (created_desc x y) with false; [now rewrite IH|].
  symmetry. unfold created_desc. apply Nat.leb_gt. exact Hy.
Qed.

Lemma sort_desc_rev (l : list row) :
  StronglySorted (fun a b => r_created_at a < r_created_at b)%nat l ->
  sort_by created_desc l = rev l.
Proof.
  induction 1 as [|a l _ IH Hf]; simpl; [reflexivity|].
  rewrite IH. apply insert_desc_last.
  rewrite Forall_forall in *. intros y Hy. apply Hf. now apply in_rev.
Qed.


Lemma rows_of_sorted (k : Z) (d : db) :
  wf_db d ->
  StronglySorted (fun a b => r_created_at a < r_created_at b)%nat (rows_of k d).
Proof. intros [Hs _]. now apply ss_filter. Qed.

Lemma recent_window (l : list row) :
  StronglySorted (fun a b => r_created_at a < r_created_at b)%nat l ->
  rev (firstn 10 (sort_by created_desc l)) = lastn 10 l.
Proof.
  intros Hs. rewrite sort_desc_rev by exact Hs.
  rewrite firstn_rev, rev_involutive. reflexivity.
Qed.

Lemma lastn_length {A} (n : nat) (l : list A) : (length (lastn n l) <= n)%nat.
Proof. unfold lastn. rewrite length_skipn. lia. Qed.

Lemma count_generate_app (a b : list event) :
  count_generate (a ++ b) = (count_generate a + count_generate b)%nat.
Proof. induction a as [|e a IH]; simpl; [reflexivity|]. destruct e; simpl; now rewrite ?IH. Qed.

Ltac unfold_m :=
  unfold load_statements, with_connection, release in *;
  unfold bind, try_, ret, raise, get_pool, emit, uuid_UUID in *.

Ltac fin :=
  repeat match goal with
  | |- _ /\ _ => split
  | |- Some _ = None -> _ => let H := fresh in intro H; discriminate H
  | |- exists sfx, _ = (?tr ++ sfx)%list /\ _ =>
      eexists; split; [rewrite <- ?app_assoc; reflexivity | reflexivity]
  | |- _ \/ _ => (left; reflexivity) || (right; eexists; split; reflexivity)
  | |- _ => reflexivity
  end.

Lemma load_history_spec (cid : string) (w : world) :
  exists h w', load_history cid w = (inl h, w') /\
    only_registered (uuid_UUID_parse cid) w w' /\
    (exists sfx, trace w' = (trace w ++ sfx)%list /\ count_generate sfx = O) /\
    (db_pool w = None -> w' = w) /\
    h = match db_pool w, uuid_UUID_parse cid with
        | Some d, Some k =>
            if no_faults 3 (faults w)
            then map turn_of (rev (firstn 10 (sort_by created_desc (rows_of k d))))
            else []
        | _, _ => []
        end.
Proof.
  unfold load_history. unfold_m.
  destruct w as [[d|] fl rl tr]; simpl.
  - unfold store_call; simpl.
    destruct rl as [|[|] rl];
    destruct (uuid_UUID_parse cid) as [k|] eqn:Hk;
    destruct fl as [|[|] [|[|] [|[|] fl]]]; cbn -[firstn sort_by rows_of map rev];
    try destruct (existsb (Z.eqb k) (conversations d)) eqn:He;
    cbn -[firstn sort_by rows_of map rev];
    (do 2 eexists; split; [reflexivity|]);
    unfold only_registered; cbn -[firstn sort_by rows_of map rev]; fin.
  - do 2 eexists. split; [reflexivity|].
    unfold only_registered; cbn. repeat split; try reflexivity.
    now exists []; rewrite app_nil_r.
Qed.

Lemma persist_messages_spec (cid m t : string) (w : world) :
  exists w', persist_messages cid m t w = (inl tt, w') /\
    (exists sfx, trace w' = (trace w ++ sfx)%list /\ count_generate sfx = O) /\
    (db_pool w = None -> w' = w) /\
    (uuid_UUID_parse cid = None -> db_messages w' = db_messages w).
Proof.
  unfold persist_messages. unfold_m.
  destruct w as [[d|] fl rl tr]; cbn.
  - unfold store_call; cbn.
    destruct rl as [|[|] rl];
    destruct (uuid_UUID_parse cid) as [k|] eqn:Hk;
    destruct fl as [|[|] [|[|] [|[|] fl]]]; cbn;
    (eexists; split; [reflexivity|]); unfold db_messages; cbn; fin;
    intros H; discriminate H.
  - eexists. split; [reflexivity|]. repeat split; try reflexivity.
    now exists []; rewrite app_nil_r.
Qed.

Lemma call_ollama_world (o : http_outcome) (p : string) (w : world) :
  snd (call_ollama o p w) = mkWorld (db_pool w) (faults w) (release_faults w) (trace w ++ [EGenerate p]).
Proof.
  unfold call_ollama. unfold_m. cbn.
  destruct o as [| |st [[| | | | |fields]|]]; cbn; try reflexivity.
  all: destruct ((200 <=? st) && (st <? 300))%Z; try reflexivity.
  destruct (dict_get fields "response" (JStr "")); reflexivity.
Qed.

Lemma call_ollama_ok (st : Z) (fields : list (string * json)) (s p : string) (w : world) :
  (200 <= st < 300)%Z ->
  dict_get fields "response" (JStr "") = JStr s ->
  call_ollama (Response st (Some (JObj fields))) p w =
  (inl (py_strip s), mkWorld (db_pool w) (faults w) (release_faults w) (trace w ++ [EGenerate p])).
Proof.
  intros Hst Hget. unfold call_ollama. unfold_m. cbn.
  replace ((200 <=? st) && (st <? 300))%Z with true by (symmetry; apply andb_true_iff; lia).
  now rewrite Hget.
Qed.

Lemma call_ollama_failure (o : http_outcome) (p : string) (w : world) code detail :
  backend_failure o = Some (code, detail) ->
  exists e, fst (call_ollama o p w) = inr e /\
    match e with
    | HTTPStatusError _ => (code, detail) = (502%Z, "AI service error")
    | _ => (code, detail) = (503%Z, "AI service unavailable")
    end.
Proof.
  unfold backend_failure, call_ollama. unfold_m. cbn.
  destruct o as [| |st body]; intros H; injection H || idtac.
  - intros <- <-. now eexists.
  - intros <- <-. now eexists.
  - destruct ((200 <=? st) && (st <? 300))%Z; [discriminate|].
    injection H as <- <-. now eexists.
Qed.

Lemma only_registered_same_pool (k : option Z) (w w1 w2 : world) :
  db_pool w2 = db_pool w1 -> only_registered k w w1 -> only_registered k w w2.
Proof. unfold only_registered. now intros ->. Qed.

Lemma chat_steps (MODEL_NAME : string) (u : Z) (o : http_outcome) (req : ChatRequest) (w : world) :
  let cid := resolve_conversation_id u req in
  forall h w1, load_history cid w = (inl h, w1) ->
  chat MODEL_NAME u o req w =
    match call_ollama o (_build_prompt h (message req)) w1 with
    | (inl t, w2) =>
        match persist_messages cid (message req) t w2 with
        | (inl _, w3) => (inl (mkChatResponse t cid MODEL_NAME), w3)
        | (inr e, w3) => (inr e, w3)
        end
    | (inr e, w2) =>
        (inr match e with
             | HTTPStatusError _ => HTTPException 502 "AI service error"
             | _ => HTTPException 503 "AI service unavailable"
             end, w2)
    end.
Proof.
  intros cid h w1 Hl. unfold chat. fold cid. unfold bind at 1. rewrite Hl.
  unfold bind at 1, try_ at 1.
  destruct (call_ollama o (_build_prompt h (message req)) w1) as [[t|e] w2]; cbv beta.
  - unfold bind. destruct (persist_messages cid (message req) t w2) as [[[]|e] w3]; reflexivity.
  - destruct e; reflexivity.
Qed.

(** C1: persistence is best-effort.  Whenever the inference backend answers
    with a success, [chat] returns the generated text, the resolved id and
    the model, whatever the state of the store (unconfigured, unreachable,
    or failing while the two turns are persisted); when the store is
    unconfigured or unreachable the prompt is assembled from the empty
    history. *)
Theorem chat_store_best_effort (MODEL_NAME : string) (u st : Z)
    (fields : list (string * json)) (s : string) (req : ChatRequest) (w : world)
    (Hst : (200 <= st < 300)%Z)
    (Hget : dict_get fields "response" (JStr "") = JStr s) :
  let '(r, w') := chat MODEL_NAME u (Response st (Some (JObj fields))) req w in
  r = inl (mkChatResponse (py_strip s) (resolve_conversation_id u req) MODEL_NAME) /\
  ((db_pool w = None \/ hd false (faults w) = true) ->
   In (EGenerate (_build_prompt [] (message req))) (trace w')).
Proof.
  destruct (load_history_spec (resolve_conversation_id u req) w)
    as (h & w1 & Hl & _ & (sfx & Htr & _) & _ & Hh).
  rewrite (chat_steps MODEL_NAME u _ req w h w1 Hl).
  rewrite (call_ollama_ok st fields s _ w1 Hst Hget).
  destruct (persist_messages_spec (resolve_conversation_id u req) (message req) (py_strip s)
              (mkWorld (db_pool w1) (faults w1) (release_faults w1)
                 (trace w1 ++ [EGenerate (_build_prompt h (message req))])))
    as (w3 & Hp & (sfx3 & Htr3 & _) & _ & _).
  rewrite Hp. split; [reflexivity|].
  intros Hdown.
  assert (h = []) as ->.
  { rewrite Hh. destruct Hdown as [-> | Hf]; [reflexivity|].
    destruct (db_pool w); [|reflexivity].
    destruct (uuid_UUID_parse _); [|reflexivity].
    destruct (faults w) as [|f fl]; cbn in *; [discriminate|]. now rewrite Hf. }
  rewrite Htr3. cbn. apply in_or_app. left. apply in_or_app. right. now left.
Qed.

(** C2: [_build_prompt] returns the fixed preamble (followed by a blank
    line), one newline-terminated line ["User: <content>"] or
    ["Assistant: <content>"] per history turn in order (label [User] iff
    the role is ["user"]), then the cue ["User: <new_message>\nAssistant:"]. *)
Theorem build_prompt_layout (history : list turn) (user_message : string) :
  _build_prompt history user_message = spec_prompt history user_message.
Proof.
  unfold _build_prompt, spec_prompt. cbv zeta.
  rewrite fold_prompt_lines. unfold spec_preamble.
  rewrite !str_append_assoc. reflexivity.
Qed.

(** C3: an inference call answered with a non-2xx status fails [chat] with
    HTTP 502 ("AI service error", BackendError); an unreachable backend
    (connection error, timeout) fails it with HTTP 503 ("AI service
    unavailable", BackendUnavailable); the backend is called exactly once. *)
Theorem chat_backend_failure_classified (MODEL_NAME : string) (u : Z) (o : http_outcome)
    (req : ChatRequest) (w : world) (code : Z) (detail : string)
    (Hf : backend_failure o = Some (code, detail)) :
  let '(r, w') := chat MODEL_NAME u o req w in
  r = inr (HTTPException code detail) /\
  count_generate (trace w') = S (count_generate (trace w)).
Proof.
  destruct (load_history_spec (resolve_conversation_id u req) w)
    as (h & w1 & Hl & _ & (sfx & Htr & Hc) & _ & _).
  rewrite (chat_steps MODEL_NAME u o req w h w1 Hl).
  destruct (call_ollama_failure o (_build_prompt h (message req)) w1 code detail Hf)
    as (e & He & Hcls).
  pose proof (call_ollama_world o (_build_prompt h (message req)) w1) as Hw.
  destruct (call_ollama o _ w1) as [r w2]. cbn in He, Hw. subst r w2. cbn.
  split.
  - destruct e; injection Hcls as -> ->; reflexivity.
  - rewrite Htr, !count_generate_app, Hc. cbn. lia.
Qed.

(** C4: when the inference call fails, [chat] persists no turn: the
    [messages] table and the store's clock are unchanged, and the
    [conversations] table has at most gained the (idempotent) registration
    of the conversation made while loading the history. *)
Theorem chat_failure_persists_nothing (MODEL_NAME : string) (u : Z) (o : http_outcome)
    (req : ChatRequest) (w w' : world) (e : exn)
    (Hfail : chat MODEL_NAME u o req w = (inr e, w')) :
  only_registered (uuid_UUID_parse (resolve_conversation_id u req)) w w'.
Proof.
  destruct (load_history_spec (resolve_conversation_id u req) w)
    as (h & w1 & Hl & Hreg & _ & _ & _).
  rewrite (chat_steps MODEL_NAME u o req w h w1 Hl) in Hfail.
  pose proof (call_ollama_world o (_build_prompt h (message req)) w1) as Hw.
  destruct (call_ollama o _ w1) as [[t|e'] w2]; cbn in Hw; subst w2.
  - destruct (persist_messages_spec (resolve_conversation_id u req) (message req) t
                (mkWorld (db_pool w1) (faults w1) (release_faults w1)
                   (trace w1 ++ [EGenerate (_build_prompt h (message req))])))
      as (w3 & Hp & _).
    rewrite Hp in Hfail. discriminate.
  - injection Hfail as _ <-.
    now apply (only_registered_same_pool _ w w1).
Qed.

(** C6 (as amended): the history [chat] loads for its prompt is the window
    of the (at most) 10 most recent turns of the conversation, oldest
    first (fetched newest first with [LIMIT 10], then reversed); it is the
    empty sequence when the store is not configured, the id does not parse,
    or acquiring the connection, the upsert or the fetch fails; a failure
    of the release that ends the block does not change it (the release
    plan [release_faults w] plays no part), and no error propagates. *)
Theorem load_history_recent_window (cid : string) (w : world) (Hwf : wf_world w) :
  exists h w', load_history cid w = (inl h, w') /\ (length h <= 10)%nat /\
    h = match db_pool w, uuid_UUID_parse cid with
        | Some d, Some k =>
            if no_faults 3 (faults w) then map turn_of (lastn 10 (rows_of k d)) else []
        | _, _ => []
        end.
Proof.
  destruct (load_history_spec cid w) as (h & w' & Hl & _ & _ & _ & Hh).
  exists h, w'. split; [exact Hl|].
  destruct (db_pool w) as [d|] eqn:Hp; [|subst h; cbn; split; [lia|reflexivity]].
  destruct (uuid_UUID_parse cid) as [k|]; [|subst h; cbn; split; [lia|reflexivity]].
  destruct (no_faults 3 (faults w)); [|subst h; cbn; split; [lia|reflexivity]].
  rewrite recent_window in Hh by (apply rows_of_sorted, Hwf, Hp).
  subst h. split; [|reflexivity].
  rewrite length_map. apply lastn_length.
Qed.


Lemma ss_snoc (R : row -> row -> Prop) (l : list row) (x : row) :
  StronglySorted R l -> Forall (fun y => R y x) l -> StronglySorted R (l ++ [x])%list.
Proof.
  induction 1 as [|a l _ IH Ha]; intros Hx; cbn.
  - repeat constructor.
  - inversion Hx as [|? ? Hax Hl]; subst. constructor; [now apply IH|].
    apply Forall_app. split; [exact Ha|]. now constructor.
Qed.

(** The store keeps [wf_db] across every statement. *)
Lemma run_op_wf (op : store_op) (d : db) : wf_db d -> wf_db (snd (run_op op d)).
Proof.
  intros [Hs Hc]. destruct op; cbn; try (split; assumption).
  - destruct (existsb (Z.eqb k) (conversations d)); split; assumption.
  - split; cbn.
    + apply ss_snoc; [exact Hs|]. exact Hc.
    + apply Forall_app. split.
      * eapply Forall_impl; [|exact Hc]. cbn. intros r Hr. lia.
      * constructor; [cbn; lia | constructor].
Qed.

Lemma store_call_wf (op : store_op) (w : world) :
  wf_world w -> wf_world (snd (store_call op w)).
Proof.
  unfold wf_world, store_call. destruct (db_pool w) as [d|] eqn:Hp; cbn; intros Hwf d' H.
  - destruct (hd false (faults w)); cbn in H.
    + injection H as <-. now apply Hwf.
    + destruct (run_op op d) as [rows d''] eqn:Hr. cbn in H. injection H as <-.
      replace d'' with (snd (run_op op d)) by now rewrite Hr.
      now apply run_op_wf, Hwf.
  - discriminate.
Qed.

Lemma health_spec (MODEL_NAME : string) (o : http_outcome) (w : world) :
  exists w', health MODEL_NAME o w =
    (inl (mkHealthResponse "healthy" MODEL_NAME
            match o with
            | ConnectError | Timeout => "unreachable"
            | Response st _ => if Z.eqb st 200 then "healthy" else "unhealthy"
            end
            match db_pool w with
            | None => "unavailable"
            | Some _ =>
                if no_faults 2 (faults w) && negb (hd false (release_faults w))
                then "healthy" else "unhealthy"
            end), w').
Proof.
  unfold health. unfold_m. unfold store_call.
  destruct w as [[d|] fl rl tr]; cbn; [|now eexists].
  destruct fl as [|[|] [|[|] fl]]; destruct rl as [|[|] rl]; cbn; now eexists.
Qed.


(** C9: the health probe always returns successfully (top-level status
    ["healthy"]); the reported backend status depends only on the answer
    to the tags probe and the reported store status only on the store, so
    the outcome of either probe does not affect the other. *)
Theorem health_probes_independent (MODEL_NAME : string) :
  (forall o w, exists r w', health MODEL_NAME o w = (inl r, w') /\ status r = "healthy") /\
  (forall o1 o2 w,
     option_map database (result_value (fst (health MODEL_NAME o1 w))) =
     option_map database (result_value (fst (health MODEL_NAME o2 w)))) /\
  (forall o w1 w2,
     option_map ollama (result_value (fst (health MODEL_NAME o w1))) =
     option_map ollama (result_value (fst (health MODEL_NAME o w2)))).
Proof.
  split; [|split].
  - intros o w. destruct (health_spec MODEL_NAME o w) as [w' ->]. now do 2 eexists.
  - intros o1 o2 w.
    destruct (health_spec MODEL_NAME o1 w) as [w1 ->].
    destruct (health_spec MODEL_NAME o2 w) as [w2 ->]. reflexivity.
  - intros o w1 w2.
    destruct (health_spec MODEL_NAME o w1) as [w1' ->].
    destruct (health_spec MODEL_NAME o w2) as [w2' ->]. reflexivity.
Qed.

(** C10: when the backend answers with a 2xx status and a JSON object,
    the text [chat] returns is the object's ["response"] string with
    leading and trailing whitespace stripped; without a ["response"] field
    the request succeeds with the empty string. *)
Theorem chat_response_text (MODEL_NAME : string) (u st : Z) (fields : list (string * json))
    (req : ChatRequest) (w : world) (Hst : (200 <= st < 300)%Z) :
  option_map response
    (result_value (fst (chat MODEL_NAME u (Response st (Some (JObj fields))) req w))) =
  match find (fun kv => String.eqb (fst kv) "response") fields with
  | None => Some ""
  | Some (_, JStr s) => Some (py_strip s)
  | Some _ => None
  end.
Proof.
  destruct (load_history_spec (resolve_conversation_id u req) w)
    as (h & w1 & Hl & _).
  rewrite (chat_steps MODEL_NAME u _ req w h w1 Hl).
  assert (Hok : forall s, dict_get fields "response" (JStr "") = JStr s ->
     option_map response
       (result_value (fst
         match call_ollama (Response st (Some (JObj fields))) (_build_prompt h (message req)) w1 with
         | (inl t, w2) =>
             match persist_messages (resolve_conversation_id u req) (message req) t w2 with
             | (inl _, w3) => (inl (mkChatResponse t (resolve_conversation_id u req) MODEL_NAME), w3)
             | (inr e, w3) => (inr e, w3)
             end
         | (inr e, w2) =>
             (inr match e with
                  | HTTPStatusError _ => HTTPException 502 "AI service error"
                  | _ => HTTPException 503 "AI service unavailable"
                  end, w2)
         end)) = Some (py_strip s)).
  { intros s Hget. rewrite (call_ollama_ok st fields s _ w1 Hst Hget).
    destruct (persist_messages_spec (resolve_conversation_id u req) (message req) (py_strip s)
                (mkWorld (db_pool w1) (faults w1) (release_faults w1)
                   (trace w1 ++ [EGenerate (_build_prompt h (message req))])))
      as (w3 & Hp & _).
    now rewrite Hp. }
  unfold dict_get in Hok.
  destruct (find (fun kv => String.eqb (fst kv) "response") fields) as [[key v]|] eqn:Hf.
  - destruct v as [| | | s | |]; try (apply Hok; reflexivity).
    all: unfold call_ollama; unfold_m; cbn;
      replace ((200 <=? st) && (st <? 300))%Z with true by (symmetry; apply andb_true_iff; lia);
      unfold dict_get; rewrite Hf; reflexivity.
  - now apply (Hok "").
Qed.



(** C7 (as amended): a successful [chat] returns the caller's conversation
    id unchanged when it is a non-empty string, and [str(uuid.uuid4())]
    (a fresh draw) when the caller gave none or the empty string; the
    response also carries the text produced by the inference call and the
    configured model name. *)
Theorem chat_conversation_id (MODEL_NAME : string) (u : Z) (o : http_outcome)
    (req : ChatRequest) (w : world) (r : ChatResponse) (w' : world)
    (Hok : chat MODEL_NAME u o req w = (inl r, w')) :
  conversation_id r =
    match req_conversation_id req with
    | Some s => if String.eqb s "" then uuid_str u else s
    | None => uuid_str u
    end /\
  model r = MODEL_NAME /\
  exists p w1, call_ollama o p w1 =
    (inl (response r), mkWorld (db_pool w1) (faults w1) (release_faults w1) (trace w1 ++ [EGenerate p])).
Proof.
  destruct (load_history_spec (resolve_conversation_id u req) w) as (h & w1 & Hl & _).
  rewrite (chat_steps MODEL_NAME u o req w h w1 Hl) in Hok.
  pose proof (call_ollama_world o (_build_prompt h (message req)) w1) as Hw.
  destruct (call_ollama o (_build_prompt h (message req)) w1) as [[t|e] w2] eqn:Hc;
    cbn in Hw; subst w2; [|discriminate].
  destruct (persist_messages_spec (resolve_conversation_id u req) (message req) t
              (mkWorld (db_pool w1) (faults w1) (release_faults w1)
                 (trace w1 ++ [EGenerate (_build_prompt h (message req))])))
    as (w3 & Hp & _).
  rewrite Hp in Hok. injection Hok as <- _. cbn.
  split; [reflexivity|]. split; [reflexivity|].
  exists (_build_prompt h (message req)), w1. exact Hc.
Qed.

(* ------------------------------------------------------------------ *)
(** ** Concrete runs *)

Example prompt_example :
  _build_prompt [mkTurn "user" "Hi"; mkTurn "assistant" "Hello!"] "How are you?" =
  "You are a helpful, friendly AI assistant. Answer concisely and accurately." ++ nl ++ nl
  ++ "User: Hi" ++ nl ++ "Assistant: Hello!" ++ nl ++ "User: How are you?" ++ nl ++ "Assistant:".
Proof. reflexivity. Qed.

Example uuid_ex1 :
  uuid_UUID_parse (uuid_str 255%Z) = Some 255%Z /\
  uuid_UUID_parse "12345678-1234-5678-1234-567812345678" = Some 0x12345678123456781234567812345678%Z /\
  uuid_UUID_parse "{urn:uuid:12345678-1234-5678-1234-567812345678}" = Some 0x12345678123456781234567812345678%Z /\
  uuid_UUID_parse "abc" = None /\
  uuid_str 0x12345678123456781234567812345678%Z = "12345678-1234-5678-1234-567812345678".
Proof. vm_compute. repeat split. Qed.
Example history_round_trip :
  fst ((store_call (InsertMessage 42 "user" "hi") ;;;
        store_call (InsertMessage 42 "assistant" "hello") ;;;
        store_call (InsertMessage 42 "user" "how are you") ;;;
        get_history (uuid_str 42))
       (mkWorld (Some (mkDb [42%Z] [] 0)) [] [] [])) =
  inl [mkMessage "user" "hi" (Some 0); mkMessage "assistant" "hello" (Some 1);
       mkMessage "user" "how are you" (Some 2)].
Proof. vm_compute. reflexivity. Qed.

Lemma chat_store_best_effort_witness :
  ((200 <= 200 < 300)%Z /\
   dict_get [("response", JStr " hi ")] "response" (JStr "") = JStr " hi ") /\
  (let '(r, w') := chat "tinyllama" 7 (Response 200 (Some (JObj [("response", JStr " hi ")])))
                        (mkChatRequest "Hello" None) (mkWorld (Some (mkDb [] [] 0)) [true] [] []) in
   r = inl (mkChatResponse (py_strip " hi ")
              (resolve_conversation_id 7 (mkChatRequest "Hello" None)) "tinyllama") /\
   ((db_pool (mkWorld (Some (mkDb [] [] 0)) [true] [] []) = None \/
     hd false (faults (mkWorld (Some (mkDb [] [] 0)) [true] [] [])) = true) ->
    In (EGenerate (_build_prompt [] (message (mkChatRequest "Hello" None)))) (trace w'))).
Proof.
  split; [split; [lia | reflexivity]|].
  apply (chat_store_best_effort "tinyllama" 7 200 [("response", JStr " hi ")] " hi ");
    [lia | reflexivity].
Defined.

Lemma chat_backend_failure_classified_witness :
  backend_failure (Response 500 None) = Some (502%Z, "AI service error") /\
  (let '(r, w') := chat "tinyllama" 7 (Response 500 None) (mkChatRequest "Hello" None)
                        (mkWorld (Some (mkDb [] [] 0)) [] [] []) in
   r = inr (HTTPException 502 "AI service error") /\
   count_generate (trace w') = S (count_generate (trace (mkWorld (Some (mkDb [] [] 0)) [] [] [])))).
Proof.
  split; [reflexivity|].
  apply chat_backend_failure_classified. reflexivity.
Defined.

Lemma chat_failure_persists_nothing_witness :
  chat "tinyllama" 7 ConnectError (mkChatRequest "Hi" None) (mkWorld (Some (mkDb [] [] 0)) [] [] []) =
    (inr (HTTPException 503 "AI service unavailable"),
     mkWorld (Some (mkDb [7%Z] [] 0)) [] []
       [EStore Acquire; EStore (InsertConversation 7); EStore (FetchRecent 7 10);
        EStore Release; EGenerate (_build_prompt [] "Hi")]) /\
  only_registered (uuid_UUID_parse (resolve_conversation_id 7 (mkChatRequest "Hi" None)))
    (mkWorld (Some (mkDb [] [] 0)) [] [] [])
    (mkWorld (Some (mkDb [7%Z] [] 0)) [] []
       [EStore Acquire; EStore (InsertConversation 7); EStore (FetchRecent 7 10);
        EStore Release; EGenerate (_build_prompt [] "Hi")]).
Proof.
  split; [vm_compute; reflexivity|].
  apply (chat_failure_persists_nothing "tinyllama" 7 ConnectError _ _ _
           (HTTPException 503 "AI service unavailable")).
  vm_compute. reflexivity.
Defined.

Lemma load_history_recent_window_witness :
  wf_world (mkWorld (Some (mkDb [5%Z] [mkRow 5 "user" "a" 0; mkRow 5 "assistant" "b" 1] 2)) [] [] []) /\
  exists h w',
    load_history (uuid_str 5)
      (mkWorld (Some (mkDb [5%Z] [mkRow 5 "user" "a" 0; mkRow 5 "assistant" "b" 1] 2)) [] [] []) =
      (inl h, w') /\ (length h <= 10)%nat /\
    h = map turn_of (lastn 10 [mkRow 5 "user" "a" 0; mkRow 5 "assistant" "b" 1]).
Proof.
  assert (Hwf : wf_world
    (mkWorld (Some (mkDb [5%Z] [mkRow 5 "user" "a" 0; mkRow 5 "assistant" "b" 1] 2)) [] [] [])).
  { intros d Hd. injection Hd as <-. split; cbn.
    - repeat constructor; cbn; lia.
    - repeat constructor; cbn; lia. }
  split; [exact Hwf|].
  destruct (load_history_recent_window (uuid_str 5) _ Hwf) as (h & w' & Hl & Hlen & Hh).
  exists h, w'. split; [exact Hl|]. split; [exact Hlen|]. rewrite Hh. vm_compute. reflexivity.
Defined.


Lemma chat_response_text_witness :
  (200 <= 204 < 300)%Z /\
  option_map response
    (result_value (fst (chat "tinyllama" 7 (Response 204 (Some (JObj [("done", JBool true)])))
                          (mkChatRequest "Hi" None) (mkWorld None [] [] [])))) = Some "".
Proof.
  split; [lia|].
  exact (chat_response_text "tinyllama" 7 204 [("done", JBool true)] _ _ ltac:(lia)).
Defined.



Lemma chat_conversation_id_witness :
  chat "tinyllama" 7 (Response 200 (Some (JObj [("response", JStr "ok")])))
    (mkChatRequest "Hi" (Some "conv-1")) (mkWorld None [] [] []) =
    (inl (mkChatResponse "ok" "conv-1" "tinyllama"),
     mkWorld None [] [] [EGenerate (_build_prompt [] "Hi")]) /\
  conversation_id (mkChatResponse "ok" "conv-1" "tinyllama") = "conv-1".
Proof.
  split; [vm_compute; reflexivity|].
  destruct (chat_conversation_id "tinyllama" 7
              (Response 200 (Some (JObj [("response", JStr "ok")])))
              (mkChatRequest "Hi" (Some "conv-1")) (mkWorld None [] [] [])
              (mkChatResponse "ok" "conv-1" "tinyllama")
              (mkWorld None [] [] [EGenerate (_build_prompt [] "Hi")])) as [Hid _].
  - vm_compute. reflexivity.
  - rewrite Hid. reflexivity.
Defined.

(** C7 does not hold as stated: the caller supplies the conversation id
    [""], and the response carries the freshly drawn [str(uuid.uuid4())]
    instead. *)
Lemma empty_conversation_id_replaced :
  chat "tinyllama" 7 (Response 200 (Some (JObj [("response", JStr "ok")])))
    (mkChatRequest "Hi" (Some "")) (mkWorld None [] [] []) =
    (inl (mkChatResponse "ok" (uuid_str 7) "tinyllama"),
     mkWorld None [] [] [EGenerate (_build_prompt [] "Hi")]) /\
  uuid_str 7 <> "".
Proof. split; [vm_compute; reflexivity | vm_compute; discriminate]. Qed.

(** C6 does not hold as stated: when the connection release at the end of
    the block fails after the fetch, the [except] swallows that store
    error, and the prompt is built from the fetched window, not from the
    empty sequence. *)
Lemma release_failure_keeps_history :
  fst (release
    (mkWorld (Some (mkDb [5%Z] [mkRow 5 "user" "a" 0; mkRow 5 "assistant" "b" 1] 2))
       [] [true]
       [EStore Acquire; EStore (InsertConversation 5); EStore (FetchRecent 5 10)])) =
    inr StoreError /\
  load_history (uuid_str 5)
    (mkWorld (Some (mkDb [5%Z] [mkRow 5 "user" "a" 0; mkRow 5 "assistant" "b" 1] 2))
       [] [true] []) =
    (inl [mkTurn "user" "a"; mkTurn "assistant" "b"],
     mkWorld (Some (mkDb [5%Z] [mkRow 5 "user" "a" 0; mkRow 5 "assistant" "b" 1] 2))
       [] []
       [EStore Acquire; EStore (InsertConversation 5); EStore (FetchRecent 5 10);
        EStore Release]).
Proof. split; vm_compute; reflexivity. Qed.

(* ------------------------------------------------------------------ *)
(** ** Further properties of the handlers *)

Lemma load_history_ok (cid : string) (w : world) (d : db) (k : Z) :
  db_pool w = Some d -> uuid_UUID_parse cid = Some k -> no_faults 3 (faults w) = true ->
  load_history cid w =
    (inl (map turn_of (rev (firstn 10 (sort_by created_desc (rows_of k d))))),
     mkWorld (Some (snd (run_op (InsertConversation k) d))) (tl (tl (tl (faults w))))
       (tl (release_faults w))
       (trace w ++ [EStore Acquire; EStore (InsertConversation k); EStore (FetchRecent k 10);
                    EStore Release])).
Proof.
  intros Hp Hk Hf. destruct w as [pool fl rl tr]; cbn in Hp; subst pool.
  unfold load_history. unfold_m. unfold store_call.
  destruct fl as [|[|] [|[|] [|[|] fl]]]; cbn in Hf; try discriminate;
    destruct rl as [|[|] rl];
    cbn -[firstn sort_by rows_of map rev Z.eqb existsb]; rewrite Hk;
    cbn -[firstn sort_by rows_of map rev Z.eqb existsb];
    destruct (existsb (Z.eqb k) (conversations d));
    cbn -[firstn sort_by rows_of map rev Z.eqb existsb]; now rewrite <- !app_assoc.
Qed.

Lemma persist_messages_ok (cid m t : string) (w : world) (d : db) (k : Z) :
  db_pool w = Some d -> uuid_UUID_parse cid = Some k -> no_faults 3 (faults w) = true ->
  persist_messages cid m t w =
    (inl tt,
     mkWorld (Some (mkDb (conversations d)
                     (messages d ++ [mkRow k "user" m (clock d);
                                     mkRow k "assistant" t (S (clock d))])
                     (S (S (clock d)))))
       (tl (tl (tl (faults w))))
       (tl (release_faults w))
       (trace w ++ [EStore Acquire; EStore (InsertMessage k "user" m);
                    EStore (InsertMessage k "assistant" t); EStore Release])).
Proof.
  intros Hp Hk Hf. destruct w as [pool fl rl tr]; cbn in Hp; subst pool.
  unfold persist_messages. unfold_m. unfold store_call. cbn.
  destruct fl as [|[|] [|[|] [|[|] fl]]]; cbn in Hf; try discriminate;
    destruct rl as [|[|] rl];
    cbn; rewrite Hk; cbn; now rewrite <- !app_assoc.
Qed.


Lemma iter_tl_comm (n : nat) (f : list bool) :
  Nat.iter n (@tl bool) (tl f) = tl (Nat.iter n (@tl bool) f).
Proof.
  induction n as [|n IH]; [reflexivity|].
  change (tl (Nat.iter n (@tl bool) (tl f)) = tl (tl (Nat.iter n (@tl bool) f))).
  now rewrite IH.
Qed.

Lemma no_faults_split (n m : nat) (f : list bool) :
  no_faults (n + m) f = true ->
  no_faults n f = true /\ no_faults m (Nat.iter n (@tl bool) f) = true.
Proof.
  revert f; induction n as [|n IH]; intros f H; [now split|].
  change (negb (hd false f) && no_faults (n + m) (tl f) = true) in H.
  change (negb (hd false f) && no_faults n (tl f) = true /\
          no_faults m (tl (Nat.iter n (@tl bool) f)) = true).
  apply andb_true_iff in H as [H1 H2]. apply IH in H2 as [H2 H3].
  rewrite H1, H2. split; [reflexivity|].
  rewrite <- iter_tl_comm. exact H3.
Qed.

Lemma chat_ok (MODEL_NAME : string) (u st : Z) (fields : list (string * json)) (s : string)
    (req : ChatRequest) (w : world) (d : db) (k : Z) :
  db_pool w = Some d ->
  uuid_UUID_parse (resolve_conversation_id u req) = Some k ->
  no_faults 6 (faults w) = true ->
  (200 <= st < 300)%Z ->
  dict_get fields "response" (JStr "") = JStr s ->
  exists rl tr,
  chat MODEL_NAME u (Response st (Some (JObj fields))) req w =
    (inl (mkChatResponse (py_strip s) (resolve_conversation_id u req) MODEL_NAME),
     mkWorld (Some (mkDb (conversations (snd (run_op (InsertConversation k) d)))
                     (messages d ++ [mkRow k "user" (message req) (clock d);
                                     mkRow k "assistant" (py_strip s) (S (clock d))])
                     (S (S (clock d)))))
       (Nat.iter 6 (@tl bool) (faults w)) rl tr).
Proof.
  intros Hp Hk Hf Hst Hget.
  apply (no_faults_split 3 3) in Hf as [Hf1 Hf2].
  rewrite (chat_steps MODEL_NAME u _ req w _ _ (load_history_ok _ w d k Hp Hk Hf1)).
  rewrite (call_ollama_ok st fields s _ _ Hst Hget).
  assert (Hpool : forall d0 : db, messages (snd (run_op (InsertConversation k) d0)) = messages d0 /\
                                  clock (snd (run_op (InsertConversation k) d0)) = clock d0).
  { intros d0. cbn. destruct (existsb (Z.eqb k) (conversations d0)); split; reflexivity. }
  rewrite (persist_messages_ok _ _ _ _ (snd (run_op (InsertConversation k) d)) k);
    [| reflexivity | exact Hk | exact Hf2].
  destruct (Hpool d) as [-> ->]. do 2 eexists. reflexivity.
Qed.

(** X1: when the backend answers with a success and none of the six store
    statements of [chat] fails, [chat] registers the conversation and
    appends exactly two rows to [messages]: first the user's message as
    sent, then the stripped reply, with consecutive timestamps. *)
Theorem chat_persists_exchange (MODEL_NAME : string) (u st : Z)
    (fields : list (string * json)) (s : string) (req : ChatRequest) (w : world)
    (d : db) (k : Z)
    (Hp : db_pool w = Some d)
    (Hk : uuid_UUID_parse (resolve_conversation_id u req) = Some k)
    (Hf : no_faults 6 (faults w) = true)
    (Hst : (200 <= st < 300)%Z)
    (Hget : dict_get fields "response" (JStr "") = JStr s) :
  exists d',
    db_pool (snd (chat MODEL_NAME u (Response st (Some (JObj fields))) req w)) = Some d' /\
    In k (conversations d') /\
    messages d' = (messages d ++ [mkRow k "user" (message req) (clock d);
                                  mkRow k "assistant" (py_strip s) (S (clock d))])%list /\
    clock d' = S (S (clock d)).
Proof.
  destruct (chat_ok MODEL_NAME u st fields s req w d k Hp Hk Hf Hst Hget) as (rl & tr & ->).
  eexists. split; [reflexivity|]. split; [|split; reflexivity].
  cbn. destruct (existsb (Z.eqb k) (conversations d)) eqn:He; cbn.
  - apply existsb_exists in He as (k' & Hin & Heq). apply Z.eqb_eq in Heq. now subst.
  - apply in_or_app. right. now left.
Qed.

(** X2: the two inserts of the "Persist messages" block do not run in a
    transaction: when the insert of the user turn succeeds and the insert
    of the assistant turn fails, the user turn stays stored alone and the
    failure is swallowed. *)
Theorem persist_no_rollback (cid m t : string) (w : world) (d : db) (k : Z)
    (Hp : db_pool w = Some d) (Hk : uuid_UUID_parse cid = Some k)
    (Hf : firstn 3 (faults w) = [false; false; true]) :
  exists w', persist_messages cid m t w = (inl tt, w') /\
    db_pool w' = Some (mkDb (conversations d)
                         (messages d ++ [mkRow k "user" m (clock d)]) (S (clock d))).
Proof.
  destruct w as [pool fl rl tr]; cbn in Hp, Hf; subst pool.
  destruct fl as [|[|] [|[|] [|[|] fl]]]; cbn in Hf; try discriminate.
  unfold persist_messages. unfold_m. unfold store_call. cbn.
  rewrite Hk. cbn. destruct rl as [|[|] rl]; cbn; eexists; split; reflexivity.
Qed.

Lemma wf_db_insert2 (d : db) (k : Z) (m t : string) :
  wf_db d ->
  wf_db (mkDb (conversations d)
           (messages d ++ [mkRow k "user" m (clock d); mkRow k "assistant" t (S (clock d))])
           (S (S (clock d)))).
Proof.
  intros Hwf.
  pose proof (run_op_wf (InsertMessage k "assistant" t) _
                (run_op_wf (InsertMessage k "user" m) d Hwf)) as H.
  cbn in H. now rewrite <- app_assoc in H.
Qed.

Lemma rows_of_insert2 (d : db) (k : Z) (c : list Z) (r1 r2 : string) (n : nat) :
  rows_of k (mkDb c (messages d ++ [mkRow k "user" r1 n; mkRow k "assistant" r2 (S n)]) (S (S n))) =
  (rows_of k d ++ [mkRow k "user" r1 n; mkRow k "assistant" r2 (S n)])%list.
Proof. unfold rows_of. cbn. rewrite filter_app. cbn. now rewrite Z.eqb_refl. Qed.


(** X4: the history the next request loads ends with this exchange: after
    a successful [chat] on a working store, loading the history of the same
    conversation gives the last 10 of its earlier turns followed by the
    user's message and the reply, oldest first. *)
Theorem chat_then_load_history (MODEL_NAME : string) (u st : Z)
    (fields : list (string * json)) (s : string) (req : ChatRequest) (w : world)
    (d : db) (k : Z)
    (Hp : db_pool w = Some d) (Hwf : wf_db d)
    (Hk : uuid_UUID_parse (resolve_conversation_id u req) = Some k)
    (Hf : no_faults 9 (faults w) = true)
    (Hst : (200 <= st < 300)%Z)
    (Hget : dict_get fields "response" (JStr "") = JStr s) :
  exists w'',
  load_history (resolve_conversation_id u req)
    (snd (chat MODEL_NAME u (Response st (Some (JObj fields))) req w)) =
    (inl (map turn_of (lastn 10 (rows_of k d ++
                                 [mkRow k "user" (message req) (clock d);
                                  mkRow k "assistant" (py_strip s) (S (clock d))]))), w'').
Proof.
  apply (no_faults_split 6 3) in Hf as [Hf6 Hf3].
  destruct (chat_ok MODEL_NAME u st fields s req w d k Hp Hk Hf6 Hst Hget) as (rl & tr & ->).
  cbn [snd]. erewrite (load_history_ok _ _ _ k); [| reflexivity | exact Hk | exact Hf3].
  eexists. f_equal. f_equal. f_equal.
  rewrite recent_window.
  - cbn [snd run_op]. now rewrite rows_of_insert2.
  - apply rows_of_sorted.
    apply wf_db_insert2 with (d := mkDb (conversations (snd (run_op (InsertConversation k) d)))
                                         (messages d) (clock d)).
    destruct Hwf as [H1 H2]. split; assumption.
Qed.

Lemma NoDup_snoc {A} (l : list A) (x : A) :
  NoDup l -> ~ In x l -> NoDup (l ++ [x])%list.
Proof.
  induction 1 as [|a l Ha Hl IH]; intros Hx; cbn.
  - repeat constructor. intros [].
  - constructor.
    + intros Hin. apply in_app_or in Hin as [Hin|[Heq|[]]]; [contradiction|].
      apply Hx. left. now symmetry.
    + apply IH. intros Hin. apply Hx. now right.
Qed.

(** X5: loading the history registers the conversation exactly once
    ([INSERT ... ON CONFLICT DO NOTHING]): afterwards its id is in
    [conversations], a table without duplicates stays without duplicates,
    and an already registered conversation leaves the table unchanged. *)
Theorem load_history_registers (cid : string) (w : world) (d : db) (k : Z)
    (Hp : db_pool w = Some d) (Hk : uuid_UUID_parse cid = Some k)
    (Hf : no_faults 3 (faults w) = true) (Hnd : NoDup (conversations d)) :
  exists d', db_pool (snd (load_history cid w)) = Some d' /\
    In k (conversations d') /\ NoDup (conversations d') /\
    (In k (conversations d) -> conversations d' = conversations d).
Proof.
  rewrite (load_history_ok cid w d k Hp Hk Hf). cbn [snd db_pool].
  eexists. split; [reflexivity|]. cbn.
  destruct (existsb (Z.eqb k) (conversations d)) eqn:He; cbn.
  - apply existsb_exists in He as (k' & Hin & Heq). apply Z.eqb_eq in Heq. subst k'.
    repeat split; auto.
  - assert (Hnin : ~ In k (conversations d)).
    { intros Hin. assert (existsb (Z.eqb k) (conversations d) = true) as Ht
        by (apply existsb_exists; exists k; split; [exact Hin | apply Z.eqb_refl]).
      congruence. }
    split; [apply in_or_app; right; now left|].
    split; [now apply NoDup_snoc|]. intros Hin. contradiction.
Qed.

(** X6: fetching the history and the health probe are read-only: they
    leave the store (both tables and its clock) unchanged, whatever the
    store does. *)
Theorem read_only_handlers (MODEL_NAME cid : string) (o : http_outcome) (w : world) :
  db_pool (snd (get_history cid w)) = db_pool w /\
  db_pool (snd (health MODEL_NAME o w)) = db_pool w.
Proof.
  destruct w as [[d|] fl rl tr]; split.
  - unfold get_history. unfold_m. unfold store_call.
    destruct (uuid_UUID_parse cid); destruct fl as [|[|] [|[|] fl]]; reflexivity.
  - unfold health. unfold_m. unfold store_call.
    destruct fl as [|[|] [|[|] fl]]; destruct rl as [|[|] rl]; reflexivity.
  - reflexivity.
  - reflexivity.
Qed.

(** X9: a 2xx answer whose body is not JSON, not a JSON object, or whose
    ["response"] field is not a string fails [chat] with 503 ("AI service
    unavailable"), not 502. *)
Theorem chat_bad_success_body (MODEL_NAME : string) (u st : Z) (body : option json)
    (req : ChatRequest) (w : world)
    (Hst : (200 <= st < 300)%Z)
    (Hbad : match body with
            | Some (JObj f) =>
                match dict_get f "response" (JStr "") with JStr _ => false | _ => true end
            | _ => true
            end = true) :
  fst (chat MODEL_NAME u (Response st body) req w) =
    inr (HTTPException 503 "AI service unavailable").
Proof.
  destruct (load_history_spec (resolve_conversation_id u req) w) as (h & w1 & Hl & _).
  rewrite (chat_steps MODEL_NAME u _ req w h w1 Hl).
  unfold call_ollama. unfold_m. cbn.
  replace ((200 <=? st) && (st <? 300))%Z with true by (symmetry; apply andb_true_iff; lia).
  destruct body as [[| | | | |f]|]; try reflexivity.
  destruct (dict_get f "response" (JStr "")); try reflexivity. discriminate.
Qed.

Lemma chat_persists_exchange_witness :
  (db_pool (mkWorld (Some (mkDb [] [] 0)) [] [] []) = Some (mkDb [] [] 0) /\
   uuid_UUID_parse (resolve_conversation_id 7 (mkChatRequest "Hi" None)) = Some 7%Z /\
   no_faults 6 [] = true /\ (200 <= 200 < 300)%Z /\
   dict_get [("response", JStr " ok ")] "response" (JStr "") = JStr " ok ") /\
  exists d',
    db_pool (snd (chat "tinyllama" 7 (Response 200 (Some (JObj [("response", JStr " ok ")])))
                    (mkChatRequest "Hi" None) (mkWorld (Some (mkDb [] [] 0)) [] [] []))) = Some d' /\
    In 7%Z (conversations d') /\
    messages d' = (messages (mkDb [] [] 0) ++
                   [mkRow 7 "user" (message (mkChatRequest "Hi" None)) (clock (mkDb [] [] 0));
                    mkRow 7 "assistant" (py_strip " ok ") (S (clock (mkDb [] [] 0)))])%list /\
    clock d' = S (S (clock (mkDb [] [] 0))).
Proof.
  split.
  { split; [reflexivity|]. split; [vm_compute; reflexivity|].
    split; [reflexivity|]. split; [lia | reflexivity]. }
  apply (chat_persists_exchange "tinyllama" 7 200 [("response", JStr " ok ")] " ok ").
  - reflexivity.
  - vm_compute. reflexivity.
  - reflexivity.
  - lia.
  - reflexivity.
Defined.

Lemma persist_no_rollback_witness :
  firstn 3 [false; false; true] = [false; false; true] /\
  exists w', persist_messages (uuid_str 7) "Hi" "Hello"
               (mkWorld (Some (mkDb [7%Z] [] 0)) [false; false; true] [] []) = (inl tt, w') /\
    db_pool w' = Some (mkDb (conversations (mkDb [7%Z] [] 0))
                         (messages (mkDb [7%Z] [] 0) ++ [mkRow 7 "user" "Hi" (clock (mkDb [7%Z] [] 0))])
                         (S (clock (mkDb [7%Z] [] 0)))).
Proof.
  split; [reflexivity|].
  apply persist_no_rollback; [reflexivity | vm_compute; reflexivity | reflexivity].
Defined.


Lemma chat_then_load_history_witness :
  wf_db (mkDb [] [] 0) /\
  exists w'',
  load_history (resolve_conversation_id 7 (mkChatRequest "Hi" None))
    (snd (chat "tinyllama" 7 (Response 200 (Some (JObj [("response", JStr "ok")])))
            (mkChatRequest "Hi" None) (mkWorld (Some (mkDb [] [] 0)) [] [] []))) =
    (inl (map turn_of (lastn 10 (rows_of 7 (mkDb [] [] 0) ++
                                 [mkRow 7 "user" (message (mkChatRequest "Hi" None)) (clock (mkDb [] [] 0));
                                  mkRow 7 "assistant" (py_strip "ok") (S (clock (mkDb [] [] 0)))]))), w'').
Proof.
  assert (Hwf : wf_db (mkDb [] [] 0)) by (split; constructor).
  split; [exact Hwf|].
  apply (chat_then_load_history "tinyllama" 7 200 [("response", JStr "ok")] "ok"
           (mkChatRequest "Hi" None) (mkWorld (Some (mkDb [] [] 0)) [] [] []) (mkDb [] [] 0) 7).
  - reflexivity.
  - exact Hwf.
  - vm_compute. reflexivity.
  - reflexivity.
  - lia.
  - reflexivity.
Defined.

Lemma load_history_registers_witness :
  NoDup (conversations (mkDb [3%Z] [] 0)) /\
  exists d', db_pool (snd (load_history (uuid_str 7) (mkWorld (Some (mkDb [3%Z] [] 0)) [] [] []))) = Some d' /\
    In 7%Z (conversations d') /\ NoDup (conversations d') /\
    (In 7%Z (conversations (mkDb [3%Z] [] 0)) -> conversations d' = conversations (mkDb [3%Z] [] 0)).
Proof.
  assert (Hnd : NoDup (conversations (mkDb [3%Z] [] 0))) by (repeat constructor; intros []).
  split; [exact Hnd|].
  apply load_history_registers; [reflexivity | vm_compute; reflexivity | reflexivity | exact Hnd].
Defined.

Lemma chat_bad_success_body_witness :
  (200 <= 200 < 300)%Z /\
  fst (chat "tinyllama" 7 (Response 200 (Some (JObj [("response", JNull)])))
         (mkChatRequest "Hi" None) (mkWorld None [] [] [])) =
    inr (HTTPException 503 "AI service unavailable").
Proof.
  split; [lia|].
  apply chat_bad_success_body; [lia | reflexivity].
Defined.

(* ------------------------------------------------------------------ *)
(** ** [str(uuid4())] parses back *)

Lemma hex_char_facts (d : Z) :
  (0 <= d < 16)%Z ->
  hex_value (hex_char d) = Some d /\ py_isspace (hex_char d) = false /\
  in_chars "{}" (hex_char d) = false /\ Ascii.eqb (hex_char d) "-"%char = false /\
  Ascii.eqb (hex_char d) "x"%char = false /\ Ascii.eqb (hex_char d) "X"%char = false /\
  hex_char d <> "u"%char.
Proof.
  intros Hd.
  assert (d = 0 \/ d = 1 \/ d = 2 \/ d = 3 \/ d = 4 \/ d = 5 \/ d = 6 \/ d = 7 \/
          d = 8 \/ d = 9 \/ d = 10 \/ d = 11 \/ d = 12 \/ d = 13 \/ d = 14 \/ d = 15)%Z
    as Hc by lia.
  repeat destruct Hc as [-> | Hc]; subst; vm_compute;
    repeat split; discriminate.
Qed.

Lemma string_app_list (a b : string) :
  list_ascii_of_string (a ++ b) = (list_ascii_of_string a ++ list_ascii_of_string b)%list.
Proof. induction a as [|c a IH]; cbn; [reflexivity | now rewrite IH]. Qed.

Lemma list_ascii_length (s : string) :
  length (list_ascii_of_string s) = String.length s.
Proof. induction s as [|c s IH]; cbn; [reflexivity | now rewrite IH]. Qed.

Lemma substring_list (n m : nat) (s : string) :
  list_ascii_of_string (substring n m s) = firstn m (skipn n (list_ascii_of_string s)).
Proof.
  revert n m. induction s as [|c s IH]; intros [|n] [|m]; cbn; try reflexivity.
  - now rewrite IH.
  - now rewrite IH.
  - now rewrite IH.
Qed.

Lemma hex_fixed_chars (n : nat) (v : Z) (s : string) :
  Forall is_hex_char (list_ascii_of_string s) ->
  Forall is_hex_char (list_ascii_of_string (hex_fixed n v s)).
Proof.
  revert v s. induction n as [|n IH]; intros v s Hs; cbn; [exact Hs|].
  apply IH. cbn. constructor; [|exact Hs].
  exists (v mod 16)%Z. split; [apply Z.mod_pos_bound; lia | reflexivity].
Qed.

Lemma hex_fixed_length (n : nat) (v : Z) (s : string) :
  String.length (hex_fixed n v s) = (n + String.length s)%nat.
Proof.
  revert v s. induction n as [|n IH]; intros v s; cbn; [reflexivity|].
  rewrite IH. cbn. lia.
Qed.

Lemma rev_string_involutive (s : string) : rev_string (rev_string s) = s.
Proof.
  unfold rev_string. rewrite list_ascii_of_string_of_list_ascii, rev_involutive.
  apply string_of_list_ascii_of_string.
Qed.

Lemma rev_string_in (c : ascii) (s : string) :
  In c (list_ascii_of_string (rev_string s)) -> In c (list_ascii_of_string s).
Proof.
  unfold rev_string. rewrite list_ascii_of_string_of_list_ascii. apply in_rev.
Qed.

Lemma strip_chars_noop (set s : string) :
  (forall c, In c (list_ascii_of_string s) -> in_chars set c = false) ->
  strip_chars set s = s.
Proof.
  intros H.
  assert (Hl : forall t, (forall c, In c (list_ascii_of_string t) -> in_chars set c = false) ->
                         lstrip_chars set t = t).
  { intros [|c t] Ht; cbn; [reflexivity|]. now rewrite (Ht c (or_introl eq_refl)). }
  unfold strip_chars. rewrite (Hl s H), Hl.
  - apply rev_string_involutive.
  - intros c Hc. now apply H, rev_string_in.
Qed.

Lemma py_strip_noop (s : string) :
  (forall c, In c (list_ascii_of_string s) -> py_isspace c = false) ->
  py_strip s = s.
Proof.
  intros H.
  assert (Hl : forall t, (forall c, In c (list_ascii_of_string t) -> py_isspace c = false) ->
                         lstrip t = t).
  { intros [|c t] Ht; cbn; [reflexivity|]. now rewrite (Ht c (or_introl eq_refl)). }
  unfold py_strip. rewrite (Hl s H), Hl.
  - apply rev_string_involutive.
  - intros c Hc. now apply H, rev_string_in.
Qed.

Lemma remove_all_noop (p0 : ascii) (pat s : string) :
  (forall c, In c (list_ascii_of_string s) -> c <> p0) ->
  remove_all (String p0 pat) s = s.
Proof.
  unfold remove_all. induction s as [|c s IH]; intros H; cbn; [reflexivity|].
  destruct (ascii_dec p0 c) as [<-|_].
  - exfalso. exact (H p0 (or_introl eq_refl) eq_refl).
  - rewrite IH; [reflexivity|]. intros c' Hc'. apply H. now right.
Qed.

Lemma remove_dash (s : string) :
  remove_all "-" s =
  string_of_list_ascii (filter (fun c => negb (Ascii.eqb c "-"%char)) (list_ascii_of_string s)).
Proof.
  unfold remove_all. induction s as [|c s IH]; [reflexivity|].
  cbn [remove_all_go list_ascii_of_string filter].
  destruct (Ascii.eqb c "-"%char) eqn:E.
  - apply Ascii.eqb_eq in E. subst c. cbn.
    replace (prefix "" s) with true by (destruct s; reflexivity). exact IH.
  - assert (Hp : String.prefix "-" (String c s) = false).
    { cbn [String.prefix]. destruct (ascii_dec "-"%char c) as [<-|]; [discriminate | reflexivity]. }
    rewrite Hp. cbn [negb string_of_list_ascii]. now rewrite IH.
Qed.

Lemma filter_all {A} (p : A -> bool) (l : list A) :
  (forall x, In x l -> p x = true) -> filter p l = l.
Proof.
  induction l as [|x l IH]; intros H; cbn; [reflexivity|].
  rewrite (H x (or_introl eq_refl)), IH; [reflexivity|]. intros y Hy. apply H. now right.
Qed.

Lemma in_firstn_skipn {A} (x : A) (m n : nat) (l : list A) :
  In x (firstn m (skipn n l)) -> In x l.
Proof.
  intros H. rewrite <- (firstn_skipn n l). apply in_or_app. right.
  rewrite <- (firstn_skipn m (skipn n l)). apply in_or_app. now left.
Qed.

Lemma groups_32 {A} (l : list A) :
  length l = 32%nat ->
  (firstn 8 (skipn 0 l) ++ firstn 4 (skipn 8 l) ++ firstn 4 (skipn 12 l) ++
   firstn 4 (skipn 16 l) ++ firstn 12 (skipn 20 l))%list = l.
Proof.
  intros Hl.
  do 32 (destruct l as [|? l]; [discriminate|]).
  destruct l; [reflexivity | discriminate].
Qed.

Lemma uuid_str_chars (v : Z) (c : ascii) :
  In c (list_ascii_of_string (uuid_str v)) -> c = "-"%char \/ is_hex_char c.
Proof.
  assert (Hh := hex_fixed_chars 32 v "" (Forall_nil _)).
  rewrite Forall_forall in Hh.
  unfold uuid_str. rewrite !string_app_list, !substring_list. cbn [list_ascii_of_string].
  intros H. rewrite !in_app_iff in H.
  repeat match goal with H : _ \/ _ |- _ => destruct H as [H|H] end;
    first [ right; apply Hh; eapply in_firstn_skipn; exact H
          | destruct H as [<-|[]]; now left ].
Qed.

Lemma remove_dash_uuid (v : Z) : remove_all "-" (uuid_str v) = hex_fixed 32 v "".
Proof.
  assert (Hh := hex_fixed_chars 32 v "" (Forall_nil _)).
  rewrite Forall_forall in Hh.
  rewrite remove_dash. unfold uuid_str.
  rewrite !string_app_list, !substring_list. cbn [list_ascii_of_string].
  rewrite !filter_app. cbn [filter].
  replace (negb (Ascii.eqb "-" "-")) with false by reflexivity. cbn [app].
  rewrite !filter_all;
    [ rewrite groups_32;
      [ apply string_of_list_ascii_of_string
      | now rewrite list_ascii_length, hex_fixed_length ]
    | intros x Hx; apply in_firstn_skipn, Hh in Hx; destruct Hx as (d & Hd & ->);
      now rewrite (proj1 (proj2 (proj2 (proj2 (hex_char_facts d Hd))))) .. ].
Qed.

Lemma hex_digits_fixed (n : nat) (v a : Z) (s : string) (u e : bool) :
  hex_digits (hex_fixed (S n) v s) a u e =
  hex_digits s (a * 16 ^ Z.of_nat (S n) + v mod 16 ^ Z.of_nat (S n))%Z true true.
Proof.
  revert v s. induction n as [|n IH]; intros v s.
  - cbn [hex_fixed hex_digits].
    rewrite (proj1 (hex_char_facts (v mod 16) (Z.mod_pos_bound v 16 ltac:(lia)))).
    reflexivity.
  - change (hex_fixed (S (S n)) v s)
      with (hex_fixed (S n) (v / 16)%Z (String (hex_char (v mod 16)%Z) s)).
    rewrite IH. cbn [hex_digits].
    rewrite (proj1 (hex_char_facts (v mod 16) (Z.mod_pos_bound v 16 ltac:(lia)))).
    f_equal.
    assert (Hp : (0 < 16 ^ Z.of_nat (S n))%Z) by (apply Z.pow_pos_nonneg; lia).
    replace (16 ^ Z.of_nat (S (S n)))%Z with (16 * 16 ^ Z.of_nat (S n))%Z
      by (rewrite (Nat2Z.inj_succ (S n)), Z.pow_succ_r; lia).
    set (p := (16 ^ Z.of_nat (S n))%Z) in *.
    assert (Hm : (v mod (16 * p) = v mod 16 + 16 * ((v / 16) mod p))%Z).
    { symmetry. apply Z.mod_unique with (q := ((v / 16) / p)%Z).
      - left. pose proof (Z.mod_pos_bound v 16 ltac:(lia)).
        pose proof (Z.mod_pos_bound (v / 16) p Hp). lia.
      - pose proof (Z.div_mod v 16 ltac:(lia)).
        pose proof (Z.div_mod (v / 16) p ltac:(lia)). nia. }
    rewrite Hm. ring.
Qed.

Lemma py_int16_hex (c : ascii) (r : string) :
  is_hex_char c -> Forall is_hex_char (list_ascii_of_string r) ->
  py_int16 (String c r) = hex_digits (String c r) 0 false false.
Proof.
  intros Hc Hr. unfold py_int16.
  rewrite py_strip_noop.
  2: { intros x [<-|Hx].
       - destruct Hc as (d & Hd & ->). apply (hex_char_facts d Hd).
       - rewrite Forall_forall in Hr. destruct (Hr x Hx) as (d & Hd & ->).
         apply (hex_char_facts d Hd). }
  destruct Hc as (d & Hd & ->).
  assert (d = 0 \/ d = 1 \/ d = 2 \/ d = 3 \/ d = 4 \/ d = 5 \/ d = 6 \/ d = 7 \/
          d = 8 \/ d = 9 \/ d = 10 \/ d = 11 \/ d = 12 \/ d = 13 \/ d = 14 \/ d = 15)%Z
    as Hc by lia.
  destruct r as [|x r].
  - repeat destruct Hc as [-> | Hc]; subst;
      match goal with |- context [hex_char ?d] =>
        let c := eval vm_compute in (hex_char d) in change (hex_char d) with c end;
      cbn -[hex_digits];
      destruct (hex_digits _ _ _ _); reflexivity.
  - inversion Hr as [|? ? Hx _]. destruct Hx as (e & He & ->).
    destruct (hex_char_facts e He) as (_ & _ & _ & _ & Hx & HX & _).
    repeat destruct Hc as [-> | Hc]; subst;
      match goal with |- context [hex_char (Zpos ?d)] =>
        let c := eval vm_compute in (hex_char (Zpos d)) in change (hex_char (Zpos d)) with c
      | |- context [hex_char Z0] =>
        let c := eval vm_compute in (hex_char Z0) in change (hex_char Z0) with c end;
      cbn -[hex_digits hex_char];
      try rewrite Hx, HX; cbn -[hex_digits hex_char];
      destruct (hex_digits _ _ _ _); reflexivity.
Qed.

Lemma uuid_str_parse_mod (v : Z) : uuid_UUID_parse (uuid_str v) = Some (v mod 2 ^ 128)%Z.
Proof.
  assert (Hnu : forall c, In c (list_ascii_of_string (uuid_str v)) -> c <> "u"%char).
  { intros c Hc. destruct (uuid_str_chars v c Hc) as [-> | (d & Hd & ->)]; [discriminate|].
    apply (hex_char_facts d Hd). }
  unfold uuid_UUID_parse.
  rewrite (remove_all_noop "u" "rn:" _ Hnu), (remove_all_noop "u" "uid:" _ Hnu).
  rewrite strip_chars_noop.
  2: { intros c Hc. destruct (uuid_str_chars v c Hc) as [-> | (d & Hd & ->)]; [reflexivity|].
       apply (hex_char_facts d Hd). }
  rewrite remove_dash_uuid, hex_fixed_length. cbn [negb Nat.eqb String.length Nat.add].
  assert (Hh := hex_fixed_chars 32 v "" (Forall_nil _)).
  assert (Hl := hex_fixed_length 32 v "").
  destruct (hex_fixed 32 v "") as [|c r] eqn:E; [discriminate|].
  inversion Hh as [|? ? Hc Hr]. subst.
  rewrite (py_int16_hex c r Hc Hr), <- E, (hex_digits_fixed 31 v 0 "" false false).
  cbn [hex_digits]. rewrite Z.mul_0_l, Z.add_0_l.
  replace (16 ^ Z.of_nat 32)%Z with (2 ^ 128)%Z by reflexivity.
  assert (Hm := Z.mod_pos_bound v (2 ^ 128) ltac:(lia)).
  replace ((0 <=? v mod 2 ^ 128) && (v mod 2 ^ 128 <? 2 ^ 128))%Z with true
    by (symmetry; apply andb_true_intro; split; [apply Z.leb_le | apply Z.ltb_lt]; lia).
  reflexivity.
Qed.

(** X10: when the request carries no conversation id, or an empty one,
    [chat] uses [str(uuid.uuid4())], and [uuid.UUID] in the store steps
    parses that string back to the drawn value (taken modulo 2^128): a
    minted id never makes the store steps fail. *)
Theorem minted_id_parses (u : Z) (req : ChatRequest)
    (Hnew : req_conversation_id req = None \/ req_conversation_id req = Some "") :
  resolve_conversation_id u req = uuid_str u /\
  uuid_UUID_parse (resolve_conversation_id u req) = Some (u mod 2 ^ 128)%Z.
Proof.
  assert (Hr : resolve_conversation_id u req = uuid_str u).
  { unfold resolve_conversation_id. destruct Hnew as [-> | ->]; reflexivity. }
  split; [exact Hr|]. rewrite Hr. apply uuid_str_parse_mod.
Qed.


Lemma minted_id_parses_witness :
  (req_conversation_id (mkChatRequest "Hi" None) = None \/
   req_conversation_id (mkChatRequest "Hi" None) = Some "") /\
  resolve_conversation_id 5 (mkChatRequest "Hi" None) = uuid_str 5 /\
  uuid_UUID_parse (resolve_conversation_id 5 (mkChatRequest "Hi" None)) = Some (5 mod 2 ^ 128)%Z.
Proof.
  split; [left; reflexivity|].
  apply minted_id_parses. left. reflexivity.
Defined.

